(** * pyabc.petab.amici: the AMICI model callable and its pickling hooks

    A shallow embedding of [AmiciPyABCModel] from [pyabc/petab/amici.py]:
    [__init__], [__call__], [__getstate__] and [__setstate__].

    Python objects that the methods mutate or copy live in an explicit
    heap; the temporary files of the pickling hooks live in an explicit
    file system; every call into the AMICI library is recorded in a trace.
    Failures are Python exceptions, threaded through a state-and-error
    monad together with [try]/[except] and [try]/[finally]. *)

From stdpp Require Import base strings gmap list pretty.

Set Default Proof Using "Type".

(** ** Exceptions *)

Inductive ExcClass :=
  | NameError
  | AttributeError
  | KeyError
  | TypeError
  | OSError
  | RuntimeError.

Global Instance ExcClass_eq_dec : EqDecision ExcClass.
Proof. solve_decision. Defined.

(** An exception instance: its class and its [args] tuple. *)
Record Exc := mkExc { exc_class : ExcClass; exc_args : list string }.

Global Instance Exc_eq_dec : EqDecision Exc.
Proof. solve_decision. Defined.

Inductive Res (A : Type) :=
  | Ok (a : A)
  | Raise (e : Exc).
Arguments Ok {A} a.
Arguments Raise {A} e.

(** ** Module namespace

    A global name is looked up in the module's globals and then in the
    builtins; a name found in neither raises [NameError]. *)

Definition builtins : gset string :=
  list_to_set ["open"; "set"; "zip"; "enumerate"; "isinstance"; "AttributeError"].

(** The names bound by the module body of [amici.py] (lines 1-24 and the
    two class statements) when its imports succeed. *)
Definition module_globals : gset string :=
  list_to_set
    ["logging"; "Sequence"; "Mapping"; "Callable"; "Union"; "Dict"; "copy";
     "pyabc"; "PetabImporter"; "logger"; "petab"; "amici";
     "simulate_petab"; "LLH"; "RDATAS";
     "AmiciPetabImporter"; "AmiciPyABCModel"].

Definition name_error (x : string) : Exc :=
  mkExc NameError ["name '" +:+ x +:+ "' is not defined"].

Definition bytes := list Byte.byte.

(** ** The monad: state passing with exceptions

    A computation takes the world, returns a value or raises, and leaves
    a world behind in both cases. *)

Section monad.
Context {W : Type}.

Definition M (A : Type) : Type := W → Res A * W.

Definition pure {A} (a : A) : M A := λ w, (Ok a, w).
Definition raise {A} (e : Exc) : M A := λ w, (Raise e, w).
Definition bind {A B} (m : M A) (k : A → M B) : M B := λ w,
  match m w with
  | (Ok a, w') => k a w'
  | (Raise e, w') => (Raise e, w')
  end.
Definition lift {A} (r : Res A) : M A := λ w, (r, w).
Definition modify (f : W → W) : M unit := λ w, (Ok tt, f w).

(** [try: body except cls as e: handler e] *)
Definition try_except {A} (body : M A) (cls : ExcClass) (handler : Exc → M A) : M A :=
  λ w,
    match body w with
    | (Raise e, w') =>
        if decide (exc_class e = cls) then handler e w' else (Raise e, w')
    | r => r
    end.

(** [try: body finally: fin]. The cleanup runs on every exit of the
    body; a failure of the cleanup replaces the outcome of the body. *)
Definition try_finally {A} (body : M A) (fin : M unit) : M A :=
  λ w,
    let '(r, w1) := body w in
    match fin w1 with
    | (Ok _, w2) => (r, w2)
    | (Raise e, w2) => (Raise e, w2)
    end.

(** [for x in xs: body x] *)
Fixpoint for_each {A} (xs : list A) (body : A → M unit) : M unit :=
  match xs with
  | [] => pure tt
  | x :: xs' => bind (body x) (λ _, for_each xs' body)
  end.

(** [P] is an invariant of [c]: it holds after [c] if it held before,
    whether [c] returns or raises. *)
Definition preserves {A} (P : W → Prop) (c : M A) : Prop :=
  ∀ w r w', c w = (r, w') → P w → P w'.

(** A global name reference in namespace [g]. *)
Definition name (g : gset string) (x : string) : M unit :=
  if bool_decide (x ∈ g ∪ builtins) then pure tt else raise (name_error x).
End monad.
Arguments M W A : clear implicits.

Declare Scope py_scope.
Delimit Scope py_scope with py.
Notation "'let!' x ':=' m 'in' k" := (bind m (λ x, k))
  (at level 10, x name, m at level 100, k at level 200,
   format "'[v' 'let!'  x  :=  m  'in'  '/' k ']'") : py_scope.
Open Scope py_scope.

(** ** The adapter *)

Section amici.
(** Data owned by the libraries the adapter wraps: parameter values,
    observable trajectories, per-condition return data, the PEtab problem,
    the compiled AMICI model and the AMICI solver.  The adapter only
    passes them around. *)
Context {V Traj RData Problem Model Solver : Type}.

(** ** Python values *)

(** A parameter container passed to [__call__]: a sequence or a mapping. *)
Inductive Obj :=
  | ListObj (xs : list V)
  | DictObj (d : gmap string V).

(** Values stored in the instance [__dict__] and in a pickled state. *)
Inductive PyVal :=
  | VProblem (p : Problem)
  | VModel (m : Model)
  | VSolver (s : Solver)
  | VIds (ids : list string)
  | VVals (vs : list V)
  | VBool (b : bool)
  | VBytes (b : bytes).

(** A live simulator handle: a compiled model or a solver. *)
Definition is_handle (v : PyVal) : bool :=
  match v with
  | VModel _ | VSolver _ => true
  | _ => false
  end.

(** Python truthiness, as used by [if self.return_simulations:]. *)
Definition truthy (v : PyVal) : bool :=
  match v with
  | VBool b => b
  | VIds ids => negb (bool_decide (ids = []))
  | VVals [] => false
  | VBytes [] => false
  | _ => true
  end.

(** Entries of the mapping returned by [__call__]. *)
Inductive RetVal :=
  | RLlh (llh : V)
  | RY (y : Traj)
  | RRdatas (rdatas : list RData).

(** What [simulate_petab] returns: [sim[LLH]] and [sim[RDATAS]]. *)
Record Sim := mkSim { sim_llh : V; sim_rdatas : list RData }.

(** ** The AMICI library

    Everything the adapter calls but does not own.  [RDATAS] is the
    string constant imported from [amici.petab_objective]; [rdata_y] is
    [rdata['y']]. A build without HDF5 support ([hdf5_support = false])
    does not define the two settings functions, and naming them raises
    [AttributeError]. [read_fault] and [write_fault] are failures of
    [f.read()] and [f.write()] on the temporary file. *)
Record Amici := mkAmici {
  RDATAS : string;
  rdata_y : RData → Traj;
  hdf5_support : bool;
  simulate_petab : Problem → Model → Solver → gmap string V → Res Sim;
  import_petab_problem : Problem → Res Model;
  getSolver : Model → Res Solver;
  writeSolverSettingsToHDF5 : Solver → Res bytes;
  readSolverSettingsFromHDF5 : bytes → Solver → Res Solver;
  read_fault : option Exc;
  write_fault : option Exc
}.

(** Calls into the library, in the order they happen. *)
Inductive Event :=
  | ESimulate (p : Problem) (m : Model) (s : Solver) (par : gmap string V)
  | EImportProblem (p : Problem)
  | EGetSolver (m : Model)
  | EWriteSettings (s : Solver) (file : nat)
  | EReadSettings (file : nat) (s : Solver).


(** ** The world

    [heap] holds parameter containers by reference, [files] the content
    of the files on disk by path, [fds] the open descriptors and the path
    each refers to, [trace] the library calls made so far (latest
    first). *)
Record World := mkWorld {
  heap : gmap nat Obj;
  files : gmap nat bytes;
  fds : gmap nat nat;
  trace : list Event
}.

Definition set_heap (f : gmap nat Obj → gmap nat Obj) (w : World) : World :=
  mkWorld (f (heap w)) (files w) (fds w) (trace w).
Definition set_files (f : gmap nat bytes → gmap nat bytes) (w : World) : World :=
  mkWorld (heap w) (f (files w)) (fds w) (trace w).
Definition set_fds (f : gmap nat nat → gmap nat nat) (w : World) : World :=
  mkWorld (heap w) (files w) (f (fds w)) (trace w).
Definition log (e : Event) (w : World) : World :=
  mkWorld (heap w) (files w) (fds w) (e :: trace w).

(** ** Heap operations *)

(** A reference always denotes an object; the [None] branches below
    are there only to make the functions total. *)
Definition dangling {A} : M World A :=
  raise (mkExc RuntimeError ["dangling reference"]).

Definition load (l : nat) : M World Obj := λ w,
  match heap w !! l with
  | Some o => (Ok o, w)
  | None => dangling w
  end.

Definition alloc (o : Obj) : M World nat := λ w,
  let l := fresh (dom (heap w)) in (Ok l, set_heap (insert l o) w).

(** [copy.deepcopy(par)]: parameter values are numbers, hence immutable,
    and a deep copy is a new container with the same content. *)
Definition deepcopy (l : nat) : M World nat :=
  let! o := load l in alloc o.

(** [par[key] = val] *)
Definition setitem (l : nat) (key : string) (val : V) : M World unit := λ w,
  match heap w !! l with
  | Some (DictObj d) => (Ok tt, set_heap (insert l (DictObj (<[key:=val]> d))) w)
  | Some (ListObj _) =>
      (Raise (mkExc TypeError ["list indices must be integers or slices, not str"]), w)
  | None => dangling w
  end.

(** The mapping after [for key, val in pairs: d[key] = val]. *)
Definition update_dict (d : gmap string V) (pairs : list (string * V))
    : gmap string V :=
  foldl (λ d kv, <[kv.1:=kv.2]> d) d pairs.

(** [{key: val for key, val in pairs}], also [dict(pairs)]. *)
Definition dict_of_pairs (pairs : list (string * V)) : gmap string V :=
  update_dict ∅ pairs.

(** [enumerate(xs)] *)
Fixpoint enumerate_from {A} (i : nat) (xs : list A) : list (nat * A) :=
  match xs with
  | [] => []
  | x :: xs' => (i, x) :: enumerate_from (S i) xs'
  end.
Definition enumerate {A} (xs : list A) : list (nat * A) := enumerate_from 0 xs.

(** [f'y_{i_rdata}'] *)
Definition y_key (i_rdata : nat) : string := "y_" +:+ pretty i_rdata.

(** ** Attribute access on the instance [__dict__] *)

Definition attribute_error (a : string) : Exc :=
  mkExc AttributeError ["'AmiciPyABCModel' object has no attribute '" +:+ a +:+ "'"].

Definition getattr (self : gmap string PyVal) (a : string) : M World PyVal :=
  match self !! a with
  | Some v => pure v
  | None => raise (attribute_error a)
  end.

(** The methods use each attribute at one type; a value of another type
    fails where the library would reject it. Objects built by [__init__]
    never take these branches. *)
Definition type_error {A} (a : string) : M World A :=
  raise (mkExc TypeError ["unexpected type for '" +:+ a +:+ "'"]).

Definition get_ids (self : gmap string PyVal) (a : string) : M World (list string) :=
  let! v := getattr self a in
  match v with VIds ids => pure ids | _ => type_error a end.
Definition get_vals (self : gmap string PyVal) (a : string) : M World (list V) :=
  let! v := getattr self a in
  match v with VVals vs => pure vs | _ => type_error a end.
Definition get_problem (self : gmap string PyVal) (a : string) : M World Problem :=
  let! v := getattr self a in
  match v with VProblem p => pure p | _ => type_error a end.
Definition get_model (self : gmap string PyVal) (a : string) : M World Model :=
  let! v := getattr self a in
  match v with VModel m => pure m | _ => type_error a end.
Definition get_solver (self : gmap string PyVal) (a : string) : M World Solver :=
  let! v := getattr self a in
  match v with VSolver s => pure s | _ => type_error a end.

(** ** AmiciPyABCModel *)

Definition __init__
    (petab_problem : Problem) (amici_model : Model) (amici_solver : Solver)
    (x_ids x_fixed_ids : list string) (x_fixed_vals : list V)
    (return_simulations return_rdatas : bool) : gmap string PyVal :=
  let self : gmap string PyVal := ∅ in
  let self := <["petab_problem" := VProblem petab_problem]> self in
  let self := <["amici_model" := VModel amici_model]> self in
  let self := <["amici_solver" := VSolver amici_solver]> self in
  let self := <["x_ids" := VIds x_ids]> self in
  let self := <["x_fixed_ids" := VIds x_fixed_ids]> self in
  let self := <["x_fixed_vals" := VVals x_fixed_vals]> self in
  let self := <["return_simulations" := VBool return_simulations]> self in
  let self := <["return_rdatas" := VBool return_rdatas]> self in
  self.

(** The working copy of the parameters that [__call__] hands to the
    simulator (lines 156-165). *)
Definition merge_parameters (g : gset string) (self : gmap string PyVal) (par : nat)
    : M World nat :=
  (* par = copy.deepcopy(par) *)
  let! _ := name g "copy" in
  let! par := deepcopy par in
  (* if not isinstance(par, Mapping): par = {key: val for ...} *)
  let! _ := name g "Mapping" in
  let! o := load par in
  let! par :=
    match o with
    | DictObj _ => pure par
    | ListObj xs =>
        let! x_ids := get_ids self "x_ids" in
        alloc (DictObj (dict_of_pairs (zip x_ids xs)))
    end in
  (* for key, val in zip(self.x_fixed_ids, self.x_fixed_vals): par[key] = val *)
  let! x_fixed_ids := get_ids self "x_fixed_ids" in
  let! x_fixed_vals := get_vals self "x_fixed_vals" in
  let! _ := for_each (zip x_fixed_ids x_fixed_vals) (λ kv, setitem par kv.1 kv.2) in
  pure par.

(** [sim = simulate_petab(...)] (lines 168-173): the call is recorded
    with the mapping it receives. *)
Definition simulate (g : gset string) (amici : Amici) (self : gmap string PyVal)
    (par : nat) : M World Sim :=
  let! _ := name g "simulate_petab" in
  let! petab_problem := get_problem self "petab_problem" in
  let! amici_model := get_model self "amici_model" in
  let! amici_solver := get_solver self "amici_solver" in
  let! o := load par in
  match o with
  | DictObj problem_parameters =>
      let! _ := modify (log (ESimulate petab_problem amici_model amici_solver
                               problem_parameters)) in
      lift (simulate_petab amici petab_problem amici_model amici_solver
              problem_parameters)
  | ListObj _ => type_error "problem_parameters"
  end.

(** Lines 178-179:
    [for i_rdata, rdata in enumerate(rdatas): ret[f'y_{i_rdata}'] = rdata['y']] *)
Definition store_simulations (amici : Amici) (ret : gmap string RetVal)
    (rdatas : list RData) : gmap string RetVal :=
  foldl (λ ret ir, <[y_key ir.1 := RY (rdata_y amici ir.2)]> ret)
    ret (enumerate rdatas).

(** Lines 176-183: the values of interest. *)
Definition shape_result (g : gset string) (amici : Amici) (self : gmap string PyVal)
    (sim : Sim) : M World (gmap string RetVal) :=
  (* ret = {'llh': sim[LLH]} *)
  let! _ := name g "LLH" in
  let ret : gmap string RetVal := {["llh" := RLlh (sim_llh sim)]} in
  (* if self.return_simulations: ... *)
  let! return_simulations := getattr self "return_simulations" in
  let! ret :=
    if truthy return_simulations then
      let! _ := name g "RDATAS" in
      pure (store_simulations amici ret (sim_rdatas sim))
    else pure ret in
  (* if self.return_rdatas: ret[RDATAS] = sim[RDATAS] *)
  let! return_rdatas := getattr self "return_rdatas" in
  let! ret :=
    if truthy return_rdatas then
      let! _ := name g "RDATAS" in
      pure (<[RDATAS amici := RRdatas (sim_rdatas sim)]> ret)
    else pure ret in
  pure ret.

(** The mapping lines 176-183 build when the two flags are the booleans
    [return_simulations] and [return_rdatas]. *)
Definition result_mapping (amici : Amici) (return_simulations return_rdatas : bool)
    (sim : Sim) : gmap string RetVal :=
  let ret : gmap string RetVal := {["llh" := RLlh (sim_llh sim)]} in
  let ret :=
    if return_simulations then store_simulations amici ret (sim_rdatas sim)
    else ret in
  if return_rdatas then <[RDATAS amici := RRdatas (sim_rdatas sim)]> ret else ret.

Definition __call__ (g : gset string) (amici : Amici) (self : gmap string PyVal)
    (par : nat) : M World (gmap string RetVal) :=
  let! par := merge_parameters g self par in
  let! sim := simulate g amici self par in
  shape_result g amici self sim.

(** ** Temporary files *)

(** [tempfile.mkstemp()]: a new empty file under a fresh path, opened
    under a fresh descriptor. *)
Definition mkstemp : M World (nat * nat) := λ w,
  let _fd := fresh (dom (fds w)) in
  let _file := fresh (dom (files w)) in
  (Ok (_fd, _file), set_fds (insert _fd _file) (set_files (insert _file []) w)).

Definition os_error {A} (msg : string) : M World A := raise (mkExc OSError [msg]).

(** [os.close(fd)] *)
Definition os_close (fd : nat) : M World unit := λ w,
  match fds w !! fd with
  | Some _ => (Ok tt, set_fds (delete fd) w)
  | None => os_error "Bad file descriptor" w
  end.

(** [os.remove(file)] *)
Definition os_remove (file : nat) : M World unit := λ w,
  match files w !! file with
  | Some _ => (Ok tt, set_files (delete file) w)
  | None => os_error "No such file or directory" w
  end.

(** [with open(fd, 'rb', closefd=False) as f: f.read()]; leaving the
    block does not close the descriptor. *)
Definition read_fd (amici : Amici) (fd : nat) : M World bytes := λ w,
  match read_fault amici with
  | Some e => (Raise e, w)
  | None =>
      match fds w !! fd ≫= (files w !!.) with
      | Some content => (Ok content, w)
      | None => os_error "Bad file descriptor" w
      end
  end.

(** [with open(fd, 'wb', closefd=False) as f: f.write(content)] *)
Definition write_fd (amici : Amici) (fd : nat) (content : bytes) : M World unit := λ w,
  match write_fault amici with
  | Some e => (Raise e, w)
  | None =>
      match fds w !! fd with
      | Some file => (Ok tt, set_files (insert file content) w)
      | None => os_error "Bad file descriptor" w
      end
  end.

(** The [finally] block of both hooks. *)
Definition cleanup (g : gset string) (_fd _file : nat) : M World unit :=
  let! _ := name g "os" in
  let! _ := os_close _fd in
  let! _ := name g "os" in
  os_remove _file.

(** ** Calls into the HDF5 part of the library *)

Definition no_attribute {A} (f : string) : M World A :=
  raise (mkExc AttributeError ["module 'amici' has no attribute '" +:+ f +:+ "'"]).

(** [amici.writeSolverSettingsToHDF5(solver, file)] *)
Definition write_settings (g : gset string) (amici : Amici)
    (self : gmap string PyVal) (_file : nat) : M World unit :=
  let! _ := name g "amici" in
  if hdf5_support amici then
    let! amici_solver := get_solver self "amici_solver" in
    let! _ := modify (log (EWriteSettings amici_solver _file)) in
    let! content := lift (writeSolverSettingsToHDF5 amici amici_solver) in
    modify (set_files (insert _file content))
  else no_attribute "writeSolverSettingsToHDF5".

(** [amici.readSolverSettingsFromHDF5(file, solver)] *)
Definition read_settings (g : gset string) (amici : Amici)
    (_file : nat) (solver : Solver) : M World Solver :=
  let! _ := name g "amici" in
  if hdf5_support amici then
    let! _ := modify (log (EReadSettings _file solver)) in
    λ w,
      match files w !! _file with
      | Some content => lift (readSolverSettingsFromHDF5 amici content solver) w
      | None => os_error "No such file or directory" w
      end
  else no_attribute "readSolverSettingsFromHDF5".

Definition pickling_hint : string :=
  "Pickling the AmiciObjective requires an AMICI installation with HDF5 support.".
Definition unpickling_hint : string :=
  "Unpickling an AmiciObjective requires an AMICI installation with HDF5 support.".

(** ** [__getstate__] *)

(** Lines 186-188: copy every attribute but the two live handles. *)
Definition collect_state (self : gmap string PyVal) : gmap string PyVal :=
  set_fold
    (λ key state,
       match self !! key with
       | Some v => <[key:=v]> state
       | None => state
       end)
    ∅ (dom self ∖ {["amici_model"; "amici_solver"]}).

Definition __getstate__ (g : gset string) (amici : Amici) (self : gmap string PyVal)
    : M World (gmap string PyVal) :=
  let state := collect_state self in
  (* _fd, _file = tempfile.mkstemp() *)
  let! _ := name g "tempfile" in
  let! ff := mkstemp in
  let '(_fd, _file) := ff in
  let! state :=
    try_finally
      ((* write amici solver settings to file *)
       let! _ :=
         try_except (write_settings g amici self _file) AttributeError
           (λ e, raise (mkExc (exc_class e) (exc_args e ++ [pickling_hint]))) in
       (* read in byte stream *)
       let! settings := read_fd amici _fd in
       pure (<["amici_solver_settings" := VBytes settings]> state))
      (cleanup g _fd _file) in
  pure state.

(** ** [__setstate__]

    The instance is passed and returned by value: the result is the
    [__dict__] the hook leaves behind when it returns normally. *)
Definition __setstate__ (g : gset string) (amici : Amici)
    (self state : gmap string PyVal) : M World (gmap string PyVal) :=
  (* self.__dict__.update(state) *)
  let self := state ∪ self in
  (* model = amici.petab_import.import_petab_problem(self.petab_problem) *)
  let! _ := name g "amici" in
  let! petab_problem := get_problem self "petab_problem" in
  let! _ := modify (log (EImportProblem petab_problem)) in
  let! model := lift (import_petab_problem amici petab_problem) in
  (* solver = model.getSolver() *)
  let! _ := modify (log (EGetSolver model)) in
  let! solver := lift (getSolver amici model) in
  (* _fd, _file = tempfile.mkstemp() *)
  let! _ := name g "tempfile" in
  let! ff := mkstemp in
  let '(_fd, _file) := ff in
  let! solver :=
    try_finally
      ((* write solver settings to temporary file *)
       let! settings :=
         match state !! "amici_solver_settings" with
         | Some (VBytes b) => pure b
         | Some _ => type_error "amici_solver_settings"
         | None => raise (mkExc KeyError ["amici_solver_settings"])
         end in
       let! _ := write_fd amici _fd settings in
       (* read in solver settings *)
       try_except (read_settings g amici _file solver) AttributeError
         (λ err,
            let args := if bool_decide (exc_args err = []) then [""] else exc_args err in
            raise (mkExc (exc_class err) (args ++ [unpickling_hint]))))
      (cleanup g _fd _file) in
  (* self.amici_model = model; self.amici_solver = solver *)
  let self := <["amici_model" := VModel model]> self in
  let self := <["amici_solver" := VSolver solver]> self in
  pure self.

(** Unpickling: a new instance with an empty [__dict__] receives the
    state. *)
Definition restore (g : gset string) (amici : Amici) (state : gmap string PyVal)
    : M World (gmap string PyVal) :=
  __setstate__ g amici ∅ state.

(** [restore(capture(M)).evaluate(P)]: the instance is pickled, unpickled,
    and the copy is called on [par]. *)
Definition evaluate_restored (g : gset string) (amici : Amici)
    (self : gmap string PyVal) (par : nat) : M World (gmap string RetVal) :=
  let! state := __getstate__ g amici self in
  let! restored := restore g amici state in
  __call__ g amici restored par.

(** The attributes [__call__] reads, at the types [__init__] gives them. *)
Record has_attrs (self : gmap string PyVal) (p : Problem) (m : Model) (s : Solver)
    (x_ids x_fixed_ids : list string) (x_fixed_vals : list V) (rs rr : bool) : Prop := {
  attr_petab_problem : self !! "petab_problem" = Some (VProblem p);
  attr_amici_model : self !! "amici_model" = Some (VModel m);
  attr_amici_solver : self !! "amici_solver" = Some (VSolver s);
  attr_x_ids : self !! "x_ids" = Some (VIds x_ids);
  attr_x_fixed_ids : self !! "x_fixed_ids" = Some (VIds x_fixed_ids);
  attr_x_fixed_vals : self !! "x_fixed_vals" = Some (VVals x_fixed_vals);
  attr_return_simulations : self !! "return_simulations" = Some (VBool rs);
  attr_return_rdatas : self !! "return_rdatas" = Some (VBool rr)
}.

(** ** Predicates on worlds *)

(** The files and descriptors of [w'] are those of [w]. *)
Definition same_files (w w' : World) : Prop :=
  files w' = files w ∧ fds w' = fds w.

(** The files and descriptors of [w'] are those of [w] and the temporary
    file [_file], open under [_fd], with some content. *)
Definition temp_open (w : World) (_fd _file : nat) (w' : World) : Prop :=
  fds w' = <[_fd:=_file]> (fds w) ∧ ∃ content, files w' = <[_file:=content]> (files w).

(** [c] leaves the files and descriptors as it finds them, whether it
    returns or raises. *)
Definition keeps_files {A} (c : M World A) : Prop :=
  ∀ w, same_files w (c w).2.
End amici.

(** * A worked instance

    The scenario of a problem with one free parameter [a] and one fixed
    parameter [b] of nominal value 2. Numbers are integers here; the stub
    simulator needs both parameters and returns their sum as
    log-likelihood, with two conditions. *)

Definition stub_simulate (p m : string) (s : nat) (par : gmap string Z)
    : Res (@Sim Z (list Z)) :=
  match par !! "a", par !! "b" with
  | Some a, Some b => Ok (mkSim (a + b)%Z [[a]; [a; b]])
  | _, _ => Raise (mkExc RuntimeError ["missing parameter"])
  end.

(** An AMICI build with HDF5 support when [hdf5] is set; the exported
    settings are one byte per unit of the solver's setting. *)
Definition stub_amici (hdf5 : bool) : @Amici Z (list Z) (list Z) string string nat :=
  {| RDATAS := "rdatas";
     rdata_y := λ rdata, rdata;
     hdf5_support := hdf5;
     simulate_petab := stub_simulate;
     import_petab_problem := λ p, Ok ("model of " +:+ p);
     getSolver := λ m, Ok 0;
     writeSolverSettingsToHDF5 := λ s, Ok (replicate s Byte.x01);
     readSolverSettingsFromHDF5 := λ content s, Ok (length content);
     read_fault := None;
     write_fault := None |}.


Definition stub_model (return_simulations return_rdatas : bool)
    : gmap string (@PyVal Z string string nat) :=
  __init__ "problem" "model of problem" 3 ["a"] ["b"] [2%Z]
    return_simulations return_rdatas.

(** The caller's objects: the mapping [{a: 1, b: 5}] at 0, the sequence
    [[4]] at 1 and the mapping [{a: 4}] at 2; one file on disk, open under
    descriptor 0. *)
Definition stub_world : @World Z string string nat :=
  {| heap := {[ 0 := DictObj {[ "a" := 1%Z; "b" := 5%Z ]};
                1 := ListObj [4%Z];
                2 := DictObj {[ "a" := 4%Z ]} ]};
     files := {[ 0 := [Byte.x00] ]};
     fds := {[ 0 := 0 ]};
     trace := [] |}.

(** A pickled state: the attributes of the stub model without the two
    handles, and three bytes of solver settings. *)
Definition stub_state : gmap string (@PyVal Z string string nat) :=
  <["amici_solver_settings" := VBytes [Byte.x01; Byte.x01; Byte.x01]]>
    (collect_state (stub_model false false)).

(** * Properties *)

(** ** Running the monad *)

Section monad_lemmas.
Context {W : Type}.
Implicit Types σ : W.

Lemma bind_ok {A B} (c : M W A) (k : A → M W B) σ a σ' :
  c σ = (Ok a, σ') → bind c k σ = k a σ'.
Proof. unfold bind. by intros ->. Qed.

Lemma bind_raise {A B} (c : M W A) (k : A → M W B) σ e σ' :
  c σ = (Raise e, σ') → bind c k σ = (Raise e, σ').
Proof. unfold bind. by intros ->. Qed.

Lemma name_bound g x σ :
  bool_decide (x ∈ g ∪ builtins) = true → name g x σ = (Ok tt, σ).
Proof. unfold name. by intros ->. Qed.

Lemma name_unbound g x σ :
  bool_decide (x ∈ g ∪ builtins) = false → name g x σ = (Raise (name_error x), σ).
Proof. unfold name. by intros ->. Qed.

(** A name bound in [g0] is bound in every namespace that extends it. *)
Lemma name_extends g0 g x σ :
  g0 ⊆ g → bool_decide (x ∈ g0) = true → name g x σ = (Ok tt, σ).
Proof.
  intros Hg Hx. apply name_bound, bool_decide_eq_true_2.
  apply bool_decide_eq_true_1 in Hx. set_solver.
Qed.

Lemma preserves_pure {A} (P : W → Prop) (a : A) : preserves P (pure a).
Proof. intros w r w' [= <- <-]. done. Qed.

Lemma preserves_raise {A} (P : W → Prop) e : preserves P (raise (A:=A) e).
Proof. intros w r w' [= <- <-]. done. Qed.

Lemma preserves_lift {A} (P : W → Prop) (r : Res A) : preserves P (lift r).
Proof. intros w r' w' [= <- <-]. done. Qed.

Lemma preserves_name (P : W → Prop) g x : preserves P (name g x).
Proof. unfold name. case_bool_decide; [apply preserves_pure | apply preserves_raise]. Qed.

Lemma preserves_modify (P : W → Prop) (f : W → W) :
  (∀ σ, P σ → P (f σ)) → preserves P (modify f).
Proof. intros Hf w r w' [= <- <-]. apply Hf. Qed.

Lemma preserves_bind {A B} (P : W → Prop) (c : M W A) (k : A → M W B) :
  preserves P c → (∀ a, preserves P (k a)) → preserves P (bind c k).
Proof.
  intros Hc Hk w r w' Hrun HP. unfold bind in Hrun.
  destruct (c w) as [[a|e] w1] eqn:Hcw.
  - eapply Hk; [done|]. by eapply Hc.
  - simplify_eq. by eapply Hc.
Qed.

Lemma preserves_try_except {A} (P : W → Prop) (body : M W A) cls handler :
  preserves P body → (∀ e, preserves P (handler e)) →
  preserves P (try_except body cls handler).
Proof.
  intros Hb Hh w r w' Hrun HP. unfold try_except in Hrun.
  destruct (body w) as [[a|e] w1] eqn:Hbw.
  - simplify_eq. by eapply Hb.
  - case_decide; simplify_eq; [|by eapply Hb].
    eapply Hh; [done|]. by eapply Hb.
Qed.

Lemma try_except_ok {A} (body : M W A) cls handler σ a σ' :
  body σ = (Ok a, σ') → try_except body cls handler σ = (Ok a, σ').
Proof. unfold try_except. by intros ->. Qed.

Lemma try_except_caught {A} (body : M W A) cls handler σ e σ' :
  body σ = (Raise e, σ') → exc_class e = cls →
  try_except body cls handler σ = handler e σ'.
Proof. unfold try_except. intros -> Hc. by rewrite decide_True. Qed.

Lemma try_except_pass {A} (body : M W A) cls handler σ e σ' :
  body σ = (Raise e, σ') → exc_class e ≠ cls →
  try_except body cls handler σ = (Raise e, σ').
Proof. unfold try_except. intros -> Hc. by rewrite decide_False. Qed.

(** A cleanup that succeeds lets the outcome of the body through. *)
Lemma try_finally_ok {A} (body : M W A) (fin : M W unit) σ r σ1 σ2 :
  body σ = (r, σ1) → fin σ1 = (Ok tt, σ2) → try_finally body fin σ = (r, σ2).
Proof. unfold try_finally. by intros -> ->. Qed.
End monad_lemmas.

Ltac bound := apply name_bound; vm_compute; reflexivity.
Ltac unbound := apply name_unbound; vm_compute; reflexivity.

(** ** The heap and the parameter merge *)

Section heap_lemmas.
Context {V Problem Model Solver : Type}.
Implicit Types (w : @World V Problem Model Solver).
Implicit Types (d : gmap string V) (ids : list string) (vals : list V).

Lemma update_dict_notin ids : ∀ vals d k,
  k ∉ ids → update_dict d (zip ids vals) !! k = d !! k.
Proof.
  induction ids as [|k' ids IH]; intros [|v vals] d k Hk; try done.
  apply not_elem_of_cons in Hk as [Hne Hk]. simpl.
  rewrite IH by done. by rewrite lookup_insert_ne.
Qed.

(** With distinct keys, each pair of the zip ends up in the mapping,
    whatever the mapping held before. *)
Lemma update_dict_zip_lookup ids : ∀ vals d i k v,
  NoDup ids → ids !! i = Some k → vals !! i = Some v →
  update_dict d (zip ids vals) !! k = Some v.
Proof.
  induction ids as [|k' ids IH]; intros [|v' vals] d i k v Hnd Hk Hv; try done.
  apply NoDup_cons in Hnd as [Hnotin Hnd].
  destruct i as [|i]; simpl in *.
  - simplify_eq. rewrite update_dict_notin by done. apply lookup_insert_eq.
  - by eapply IH.
Qed.

Lemma set_heap_insert_id w l o : heap w !! l = Some o → set_heap (insert l o) w = w.
Proof. destruct w; unfold set_heap; simpl. intros H. by rewrite insert_id. Qed.

Lemma set_heap_twice w l o o' :
  set_heap (insert l o') (set_heap (insert l o) w) = set_heap (insert l o') w.
Proof. destruct w; unfold set_heap; simpl. by rewrite insert_insert_eq. Qed.

Lemma heap_alloc_new w o :
  heap (set_heap (insert (fresh (dom (heap w))) o) w) !! fresh (dom (heap w)) = Some o.
Proof. apply lookup_insert_eq. Qed.

(** Allocation leaves every object that was already there alone. *)
Lemma heap_alloc_old w l o o' :
  heap w !! l = Some o →
  heap (set_heap (insert (fresh (dom (heap w))) o') w) !! l = Some o.
Proof.
  intros Hl. simpl. rewrite lookup_insert_ne; [done|].
  intros <-. apply (is_fresh (dom (heap w))). apply elem_of_dom. eauto.
Qed.

Lemma load_ok w l o : heap w !! l = Some o → load l w = (Ok o, w).
Proof. unfold load. by intros ->. Qed.

Lemma deepcopy_ok w l o :
  heap w !! l = Some o →
  deepcopy l w =
    (Ok (fresh (dom (heap w))), set_heap (insert (fresh (dom (heap w))) o) w).
Proof. intros Hl. unfold deepcopy. by rewrite (bind_ok _ _ _ _ _ (load_ok _ _ _ Hl)). Qed.

Lemma for_each_setitem pairs : ∀ w l d,
  heap w !! l = Some (DictObj d) →
  for_each pairs (λ kv, setitem l kv.1 kv.2) w
  = (Ok tt, set_heap (insert l (DictObj (update_dict d pairs))) w).
Proof.
  induction pairs as [|[k v] pairs IH]; intros w l d Hl; simpl.
  - unfold pure. by rewrite set_heap_insert_id.
  - unfold bind, setitem at 1. rewrite Hl. simpl.
    rewrite (IH _ l (<[k:=v]> d)).
    + by rewrite set_heap_twice.
    + apply lookup_insert_eq.
Qed.
End heap_lemmas.

(** ** [__call__] on a well-formed instance *)

Section call_lemmas.
Context {V Traj RData Problem Model Solver : Type}.
Implicit Types (w : @World V Problem Model Solver).
Implicit Types (amici : @Amici V Traj RData Problem Model Solver).
Implicit Types (d : gmap string V) (xs : list V).
Implicit Types (self : gmap string (@PyVal V Problem Model Solver)).

Lemma init_has_attrs (p : Problem) (m : Model) (s : Solver)
    x_ids x_fixed_ids (x_fixed_vals : list V) rs rr :
  has_attrs (__init__ p m s x_ids x_fixed_ids x_fixed_vals rs rr)
    p m s x_ids x_fixed_ids x_fixed_vals rs rr.
Proof. by split. Qed.

Lemma getattr_ok self a v w : self !! a = Some v → getattr self a w = (Ok v, w).
Proof. unfold getattr. by intros ->. Qed.

Lemma get_ids_ok self a ids w :
  self !! a = Some (VIds ids) → get_ids self a w = (Ok ids, w).
Proof. intros H. unfold get_ids. by erewrite bind_ok by by apply getattr_ok. Qed.
Lemma get_vals_ok self a vs w :
  self !! a = Some (VVals vs) → get_vals self a w = (Ok vs, w).
Proof. intros H. unfold get_vals. by erewrite bind_ok by by apply getattr_ok. Qed.
Lemma get_problem_ok self a p w :
  self !! a = Some (VProblem p) → get_problem self a w = (Ok p, w).
Proof. intros H. unfold get_problem. by erewrite bind_ok by by apply getattr_ok. Qed.
Lemma get_model_ok self a m w :
  self !! a = Some (VModel m) → get_model self a w = (Ok m, w).
Proof. intros H. unfold get_model. by erewrite bind_ok by by apply getattr_ok. Qed.
Lemma get_solver_ok self a s w :
  self !! a = Some (VSolver s) → get_solver self a w = (Ok s, w).
Proof. intros H. unfold get_solver. by erewrite bind_ok by by apply getattr_ok. Qed.

Variables (g : gset string) (self : gmap string (@PyVal V Problem Model Solver)).
Variables (p : Problem) (m : Model) (s : Solver) (x_ids x_fixed_ids : list string)
          (x_fixed_vals : list V) (rs rr : bool).
Hypothesis Hg : module_globals ⊆ g.
Hypothesis Hself : has_attrs self p m s x_ids x_fixed_ids x_fixed_vals rs rr.
Let fixed := zip x_fixed_ids x_fixed_vals.

Local Ltac bound_g := apply (name_extends module_globals); [apply Hg | vm_compute; reflexivity].
Local Ltac attr :=
  first [ apply getattr_ok | apply get_ids_ok | apply get_vals_ok
        | apply get_problem_ok | apply get_model_ok | apply get_solver_ok ];
  let H := fresh in pose proof Hself as H; destruct H; eassumption.

Lemma merge_parameters_mapping w l d :
  heap w !! l = Some (DictObj d) →
  merge_parameters g self l w =
    let l' := fresh (dom (heap w)) in
    (Ok l', set_heap (insert l' (DictObj (update_dict d fixed))) w).
Proof using Hg Hself.
  intros Hl. unfold merge_parameters.
  erewrite bind_ok by bound_g.
  erewrite bind_ok by (by apply deepcopy_ok).
  erewrite bind_ok by bound_g.
  erewrite bind_ok by (apply load_ok, heap_alloc_new).
  erewrite bind_ok by reflexivity.
  do 2 (erewrite bind_ok by attr).
  erewrite bind_ok by (apply for_each_setitem, heap_alloc_new).
  by rewrite set_heap_twice.
Qed.

Lemma merge_parameters_sequence w l xs :
  heap w !! l = Some (ListObj xs) →
  merge_parameters g self l w =
    let w1 := set_heap (insert (fresh (dom (heap w))) (ListObj xs)) w in
    let l2 := fresh (dom (heap w1)) in
    (Ok l2,
     set_heap (insert l2 (DictObj (update_dict (dict_of_pairs (zip x_ids xs)) fixed))) w1).
Proof using Hg Hself.
  intros Hl. unfold merge_parameters.
  erewrite bind_ok by bound_g.
  erewrite bind_ok by (by apply deepcopy_ok).
  erewrite bind_ok by bound_g.
  erewrite bind_ok by (apply load_ok, heap_alloc_new).
  erewrite bind_ok by (erewrite bind_ok by attr; reflexivity).
  do 2 (erewrite bind_ok by attr).
  erewrite bind_ok by (apply for_each_setitem, heap_alloc_new).
  by rewrite set_heap_twice.
Qed.

Lemma merge_parameters_dangling w l :
  heap w !! l = None →
  merge_parameters g self l w = (Raise (mkExc RuntimeError ["dangling reference"]), w).
Proof using Hg.
  intros Hl. unfold merge_parameters.
  erewrite bind_ok by bound_g.
  erewrite bind_raise; [done|].
  unfold deepcopy. erewrite bind_raise; [done|].
  unfold load. rewrite Hl. reflexivity.
Qed.

Lemma simulate_run amici w l d :
  heap w !! l = Some (DictObj d) →
  simulate g amici self l w =
    (simulate_petab amici p m s d, log (ESimulate p m s d) w).
Proof using Hg Hself.
  intros Hl. unfold simulate.
  erewrite bind_ok by bound_g.
  do 3 (erewrite bind_ok by attr).
  erewrite bind_ok by (by apply load_ok).
  reflexivity.
Qed.

Lemma shape_result_run amici sim w :
  shape_result g amici self sim w = (Ok (result_mapping amici rs rr sim), w).
Proof using Hg Hself.
  unfold shape_result.
  erewrite bind_ok by bound_g.
  erewrite bind_ok by attr.
  assert (∀ w', name g "RDATAS" w' = (Ok tt, w')) as HR by (intros; bound_g).
  unfold result_mapping. destruct rs; cbn [truthy].
  - erewrite bind_ok by (erewrite bind_ok by apply HR; reflexivity).
    erewrite bind_ok by attr.
    destruct rr; cbn [truthy]; [|done].
    by erewrite bind_ok by (erewrite bind_ok by apply HR; reflexivity).
  - erewrite bind_ok by reflexivity.
    erewrite bind_ok by attr.
    destruct rr; cbn [truthy]; [|done].
    by erewrite bind_ok by (erewrite bind_ok by apply HR; reflexivity).
Qed.

(** What remains of [__call__] once the working copy at [l] holds [d]. *)
Lemma call_after_merge amici w l d :
  heap w !! l = Some (DictObj d) →
  bind (simulate g amici self l) (shape_result g amici self) w =
    (match simulate_petab amici p m s d with
     | Ok sim => Ok (result_mapping amici rs rr sim)
     | Raise e => Raise e
     end,
     log (ESimulate p m s d) w).
Proof using Hg Hself.
  intros Hl. unfold bind. rewrite (simulate_run _ _ _ _ Hl).
  destruct (simulate_petab amici p m s d); [apply shape_result_run | done].
Qed.

Lemma call_mapping amici w l d :
  heap w !! l = Some (DictObj d) →
  __call__ g amici self l w =
    (match simulate_petab amici p m s (update_dict d fixed) with
     | Ok sim => Ok (result_mapping amici rs rr sim)
     | Raise e => Raise e
     end,
     log (ESimulate p m s (update_dict d fixed))
       (set_heap (insert (fresh (dom (heap w))) (DictObj (update_dict d fixed))) w)).
Proof using Hg Hself.
  intros Hl. unfold __call__.
  erewrite bind_ok by (by apply merge_parameters_mapping).
  apply call_after_merge, heap_alloc_new.
Qed.

Lemma call_sequence amici w l xs :
  heap w !! l = Some (ListObj xs) →
  __call__ g amici self l w =
    let d := update_dict (dict_of_pairs (zip x_ids xs)) fixed in
    let w1 := set_heap (insert (fresh (dom (heap w))) (ListObj xs)) w in
    (match simulate_petab amici p m s d with
     | Ok sim => Ok (result_mapping amici rs rr sim)
     | Raise e => Raise e
     end,
     log (ESimulate p m s d) (set_heap (insert (fresh (dom (heap w1))) (DictObj d)) w1)).
Proof using Hg Hself.
  intros Hl. unfold __call__.
  erewrite bind_ok by (by apply merge_parameters_sequence).
  apply call_after_merge, heap_alloc_new.
Qed.

Lemma call_dangling amici w l :
  heap w !! l = None →
  __call__ g amici self l w = (Raise (mkExc RuntimeError ["dangling reference"]), w).
Proof using Hg.
  intros Hl. unfold __call__. by erewrite bind_raise by (by apply merge_parameters_dangling).
Qed.

(** A call that returns a mapping returns the shaped result of a
    simulation that succeeded. *)
Lemma call_returns amici w l ret w' :
  __call__ g amici self l w = (Ok ret, w') →
  ∃ d sim, simulate_petab amici p m s d = Ok sim ∧ ret = result_mapping amici rs rr sim.
Proof using Hg Hself.
  intros Hcall. destruct (heap w !! l) as [[xs|d]|] eqn:Hl.
  - rewrite (call_sequence _ _ _ _ Hl) in Hcall. cbv zeta in Hcall.
    destruct (simulate_petab _ _ _ _ _) as [sim|] eqn:Hsim; simplify_eq. eauto.
  - rewrite (call_mapping _ _ _ _ Hl) in Hcall.
    destruct (simulate_petab _ _ _ _ _) as [sim|] eqn:Hsim; simplify_eq. eauto.
  - rewrite (call_dangling amici w l Hl) in Hcall. congruence.
Qed.
End call_lemmas.

(** ** Result keys *)

Section result_keys.
Context {V Traj RData Problem Model Solver : Type}.
Implicit Types (amici : @Amici V Traj RData Problem Model Solver).
Implicit Types (ret : gmap string (@RetVal V Traj RData)) (rdatas : list RData).

Lemma y_key_inj i j : y_key i = y_key j → i = j.
Proof. unfold y_key. intros H. simplify_eq/=. by apply (inj pretty). Qed.

Lemma y_key_not_llh i : y_key i ≠ "llh".
Proof. done. Qed.

Lemma store_from_miss amici rdatas : ∀ j ret k,
  (∀ i, i < length rdatas → k ≠ y_key (j + i)) →
  foldl (λ ret ir, <[y_key ir.1 := RY (rdata_y amici ir.2)]> ret)
    ret (enumerate_from j rdatas) !! k = ret !! k.
Proof.
  induction rdatas as [|rd rdatas IH]; intros j ret k Hk; [done|]. simpl.
  rewrite IH.
  - rewrite lookup_insert_ne; [done|]. intros Heq.
    apply (Hk 0); [simpl; lia|]. by rewrite Nat.add_0_r.
  - intros i Hi. replace (S j + i) with (j + S i) by lia. apply Hk. simpl; lia.
Qed.

Lemma store_from_hit amici rdatas : ∀ j ret i rd,
  rdatas !! i = Some rd →
  foldl (λ ret ir, <[y_key ir.1 := RY (rdata_y amici ir.2)]> ret)
    ret (enumerate_from j rdatas) !! y_key (j + i) = Some (RY (rdata_y amici rd)).
Proof.
  induction rdatas as [|rd' rdatas IH]; intros j ret i rd Hi; [done|].
  destruct i as [|i]; simpl in *.
  - simplify_eq. rewrite store_from_miss.
    + rewrite Nat.add_0_r. apply lookup_insert_eq.
    + intros i _ Heq. apply y_key_inj in Heq. lia.
  - replace (j + S i) with (S j + i) by lia. by apply IH.
Qed.

Lemma store_from_dom amici rdatas : ∀ j ret k,
  k ∈ dom (foldl (λ ret ir, <[y_key ir.1 := RY (rdata_y amici ir.2)]> ret)
             ret (enumerate_from j rdatas))
  ↔ k ∈ dom ret ∨ ∃ i, i < length rdatas ∧ k = y_key (j + i).
Proof.
  induction rdatas as [|rd rdatas IH]; intros j ret k; simpl.
  - split; [auto|]. intros [?|(i & Hi & _)]; [done|lia].
  - rewrite IH, dom_insert, elem_of_union, elem_of_singleton. split.
    + intros [[->|?]|(i & Hi & ->)].
      * right. exists 0. split; [lia|]. by rewrite Nat.add_0_r.
      * by left.
      * right. exists (S i). split; [lia|]. f_equal. lia.
    + intros [?|(i & Hi & ->)]; [by left; right|].
      destruct i as [|i].
      * left; left. by rewrite Nat.add_0_r.
      * right. exists i. split; [lia|]. f_equal. lia.
Qed.

Lemma store_simulations_lookup amici ret rdatas i rd :
  rdatas !! i = Some rd →
  store_simulations amici ret rdatas !! y_key i = Some (RY (rdata_y amici rd)).
Proof. intros Hi. by apply (store_from_hit amici rdatas 0 ret i rd). Qed.

Lemma store_simulations_other amici ret rdatas k :
  (∀ i, k ≠ y_key i) → store_simulations amici ret rdatas !! k = ret !! k.
Proof. intros Hk. apply store_from_miss. auto. Qed.

Lemma store_simulations_dom amici ret rdatas k :
  k ∈ dom (store_simulations amici ret rdatas)
  ↔ k ∈ dom ret ∨ ∃ i, i < length rdatas ∧ k = y_key i.
Proof. apply (store_from_dom amici rdatas 0). Qed.
End result_keys.

(** ** Evaluation: [__call__] *)

Section call_claims.
Context {V Traj RData Problem Model Solver : Type}.
Implicit Types (w : @World V Problem Model Solver).
Implicit Types (amici : @Amici V Traj RData Problem Model Solver).
Implicit Types (d : gmap string V) (xs : list V).
Implicit Types (p : Problem) (m : Model) (s : Solver).
Implicit Types (x_ids x_fixed_ids : list string) (x_fixed_vals : list V).

Lemma call_mapping_init amici p m s x_ids x_fixed_ids x_fixed_vals rs rr w l d :
  heap w !! l = Some (DictObj d) →
  __call__ module_globals amici (__init__ p m s x_ids x_fixed_ids x_fixed_vals rs rr) l w =
    let d' := update_dict d (zip x_fixed_ids x_fixed_vals) in
    (match simulate_petab amici p m s d' with
     | Ok sim => Ok (result_mapping amici rs rr sim)
     | Raise e => Raise e
     end,
     log (ESimulate p m s d') (set_heap (insert (fresh (dom (heap w))) (DictObj d')) w)).
Proof. intros Hl. by eapply call_mapping; [|apply init_has_attrs|]. Qed.

Lemma call_sequence_init amici p m s x_ids x_fixed_ids x_fixed_vals rs rr w l xs :
  heap w !! l = Some (ListObj xs) →
  __call__ module_globals amici (__init__ p m s x_ids x_fixed_ids x_fixed_vals rs rr) l w =
    let d := update_dict (dict_of_pairs (zip x_ids xs)) (zip x_fixed_ids x_fixed_vals) in
    let w1 := set_heap (insert (fresh (dom (heap w))) (ListObj xs)) w in
    (match simulate_petab amici p m s d with
     | Ok sim => Ok (result_mapping amici rs rr sim)
     | Raise e => Raise e
     end,
     log (ESimulate p m s d) (set_heap (insert (fresh (dom (heap w1))) (DictObj d)) w1)).
Proof. intros Hl. by eapply call_sequence; [|apply init_has_attrs|]. Qed.

Lemma call_returns_init amici p m s x_ids x_fixed_ids x_fixed_vals rs rr w l ret w' :
  __call__ module_globals amici (__init__ p m s x_ids x_fixed_ids x_fixed_vals rs rr) l w
    = (Ok ret, w') →
  ∃ d sim, simulate_petab amici p m s d = Ok sim ∧ ret = result_mapping amici rs rr sim.
Proof. intros Hcall. by eapply call_returns; [|apply init_has_attrs|]. Qed.

(** C2. Fixed values win. When [__call__] receives a mapping [d], the
    mapping it forwards to [simulate_petab] gives every fixed id [k] the
    nominal value [v] stored with it, whatever [d] held for [k]; the ids
    of the fixed list are distinct, as parameter ids are. The overlap is
    silent: the outcome of the call is the outcome of the simulation on
    the merged mapping. *)
Theorem fixed_values_override
    amici p m s x_ids x_fixed_ids x_fixed_vals rs rr w l d i k v :
  heap w !! l = Some (DictObj d) →
  NoDup x_fixed_ids →
  x_fixed_ids !! i = Some k →
  x_fixed_vals !! i = Some v →
  let self := __init__ p m s x_ids x_fixed_ids x_fixed_vals rs rr in
  ∃ forwarded,
    trace (__call__ module_globals amici self l w).2
      = ESimulate p m s forwarded :: trace w
    ∧ forwarded !! k = Some v
    ∧ (∀ k', k' ∉ x_fixed_ids → forwarded !! k' = d !! k')
    ∧ (__call__ module_globals amici self l w).1
      = match simulate_petab amici p m s forwarded with
        | Ok sim => Ok (result_mapping amici rs rr sim)
        | Raise e => Raise e
        end.
Proof.
  intros Hl Hnd Hk Hv self.
  exists (update_dict d (zip x_fixed_ids x_fixed_vals)).
  unfold self. rewrite (call_mapping_init _ _ _ _ _ _ _ _ _ _ _ _ Hl). cbv zeta.
  split_and!; [done| |intros k' Hk'|done].
  - by eapply update_dict_zip_lookup.
  - by apply update_dict_notin.
Qed.

(** C3. A sequence and the mapping zipped from it evaluate alike. For a
    sequence [xs] as long as the free-id list, [__call__] on [xs] and
    [__call__] on [dict(zip(x_ids, xs))] forward the same mapping to the
    simulator and return the same result, in whatever worlds the two
    calls are made. *)
Theorem sequence_matches_zipped_mapping
    amici p m s x_ids x_fixed_ids x_fixed_vals rs rr w1 w2 l1 l2 xs :
  length xs = length x_ids →
  heap w1 !! l1 = Some (ListObj xs) →
  heap w2 !! l2 = Some (DictObj (dict_of_pairs (zip x_ids xs))) →
  let self := __init__ p m s x_ids x_fixed_ids x_fixed_vals rs rr in
  (__call__ module_globals amici self l1 w1).1
    = (__call__ module_globals amici self l2 w2).1
  ∧ head (trace (__call__ module_globals amici self l1 w1).2)
    = head (trace (__call__ module_globals amici self l2 w2).2).
Proof.
  intros _ H1 H2 self. unfold self.
  rewrite (call_sequence_init _ _ _ _ _ _ _ _ _ _ _ _ H1).
  rewrite (call_mapping_init _ _ _ _ _ _ _ _ _ _ _ _ H2).
  done.
Qed.

(** C4. The caller's argument is not mutated. Whether [__call__] is
    given a sequence or a mapping, and whether the simulation succeeds or
    raises, the object passed in, like every object that was on the heap
    before the call, is the same after it: the fixed-parameter merge
    writes into a copy at a new location. *)
Theorem caller_argument_unchanged
    amici p m s x_ids x_fixed_ids x_fixed_vals rs rr w l o :
  heap w !! l = Some o →
  let self := __init__ p m s x_ids x_fixed_ids x_fixed_vals rs rr in
  let w' := (__call__ module_globals amici self l w).2 in
  heap w' !! l = Some o
  ∧ ∀ l0 o0, heap w !! l0 = Some o0 → heap w' !! l0 = Some o0.
Proof.
  intros Hl self w'.
  assert (∀ l0 o0, heap w !! l0 = Some o0 → heap w' !! l0 = Some o0) as Hframe; [|by auto].
  intros l0 o0 Hl0. unfold w', self. destruct o as [xs|d].
  - rewrite (call_sequence_init _ _ _ _ _ _ _ _ _ _ _ _ Hl). cbv zeta.
    cbn [snd log heap]. by do 2 apply heap_alloc_old.
  - rewrite (call_mapping_init _ _ _ _ _ _ _ _ _ _ _ _ Hl). cbv zeta.
    cbn [snd log heap]. by apply heap_alloc_old.
Qed.

(** C5. With both flags off, a call that returns returns a mapping
    whose only key is ['llh'], bound to the log-likelihood of the
    simulation. *)
Theorem only_llh_key amici p m s x_ids x_fixed_ids x_fixed_vals w l ret w' :
  __call__ module_globals amici
    (__init__ p m s x_ids x_fixed_ids x_fixed_vals false false) l w = (Ok ret, w') →
  dom ret = {["llh"]}
  ∧ ∃ forwarded sim,
      simulate_petab amici p m s forwarded = Ok sim
      ∧ ret = {["llh" := RLlh (sim_llh sim)]}.
Proof.
  intros Hcall. apply call_returns_init in Hcall as (d & sim & Hsim & ->).
  split; [apply dom_singleton_L|]. by exists d, sim.
Qed.

(** C6. With [return_simulations] on, a call that returns returns a
    mapping that holds the log-likelihood under ['llh'] and, for the
    condition of each index [i], its observable trajectory under the key
    [y_i]; distinct conditions have distinct keys, and the mapping has no
    other key except [RDATAS] when [return_rdatas] is on too. [RDATAS],
    a constant of the AMICI library, is assumed not to be ['llh'] or a
    [y_i] key. *)
Theorem simulation_keys amici p m s x_ids x_fixed_ids x_fixed_vals rr w l ret w' :
  __call__ module_globals amici
    (__init__ p m s x_ids x_fixed_ids x_fixed_vals true rr) l w = (Ok ret, w') →
  (rr = true → RDATAS amici ≠ "llh" ∧ ∀ i, RDATAS amici ≠ y_key i) →
  ∃ forwarded sim,
    simulate_petab amici p m s forwarded = Ok sim
    ∧ ret !! "llh" = Some (RLlh (sim_llh sim))
    ∧ (∀ i rd, sim_rdatas sim !! i = Some rd →
               ret !! y_key i = Some (RY (rdata_y amici rd)))
    ∧ (∀ i j, y_key i = y_key j → i = j)
    ∧ (∀ k, k ∈ dom ret ↔
             k = "llh"
             ∨ (∃ i, i < length (sim_rdatas sim) ∧ k = y_key i)
             ∨ (rr = true ∧ k = RDATAS amici)).
Proof.
  intros Hcall HR. apply call_returns_init in Hcall as (d & sim & Hsim & ->).
  exists d, sim. split; [done|]. unfold result_mapping.
  split_and!.
  - destruct rr.
    + destruct HR as [Hllh _]; [done|]. rewrite lookup_insert_ne by done.
      rewrite store_simulations_other; [apply lookup_singleton_eq|].
      intros i Heq. by apply (y_key_not_llh i).
    + rewrite store_simulations_other; [apply lookup_singleton_eq|].
      intros i Heq. by apply (y_key_not_llh i).
  - intros i rd Hi. destruct rr.
    + destruct HR as [_ Hy]; [done|]. rewrite lookup_insert_ne by apply Hy.
      by apply store_simulations_lookup.
    + by apply store_simulations_lookup.
  - apply y_key_inj.
  - intros k. destruct rr.
    + rewrite dom_insert, elem_of_union, elem_of_singleton, store_simulations_dom.
      rewrite dom_singleton, elem_of_singleton. intuition congruence.
    + rewrite store_simulations_dom, dom_singleton, elem_of_singleton. intuition congruence.
Qed.
End call_claims.

(** ** Temporary files of the pickling hooks *)

Section tempfile_lemmas.
Context {V Traj RData Problem Model Solver : Type}.
Implicit Types (w : @World V Problem Model Solver).
Implicit Types (amici : @Amici V Traj RData Problem Model Solver).
Implicit Types (self state : gmap string (@PyVal V Problem Model Solver)).

Lemma same_files_refl w : same_files w w.
Proof. done. Qed.

Lemma mkstemp_temp_open w :
  temp_open w (fresh (dom (fds w))) (fresh (dom (files w))) (mkstemp w).2.
Proof. split; [done|]. by exists []. Qed.

Lemma mkstemp_run w :
  mkstemp w = (Ok (fresh (dom (fds w)), fresh (dom (files w))), (mkstemp w).2).
Proof. done. Qed.

Lemma fresh_fd w : fds w !! fresh (dom (fds w)) = None.
Proof. apply not_elem_of_dom, is_fresh. Qed.

Lemma fresh_file w : files w !! fresh (dom (files w)) = None.
Proof. apply not_elem_of_dom, is_fresh. Qed.

Lemma preserves_getattr (P : World → Prop) self a : preserves P (getattr self a).
Proof. unfold getattr. destruct (self !! a); [apply preserves_pure|apply preserves_raise]. Qed.

Lemma preserves_get_solver (P : World → Prop) self a : preserves P (get_solver self a).
Proof.
  apply preserves_bind; [apply preserves_getattr|].
  intros []; first [apply preserves_pure | apply preserves_raise].
Qed.

Lemma preserves_get_problem (P : World → Prop) self a : preserves P (get_problem self a).
Proof.
  apply preserves_bind; [apply preserves_getattr|].
  intros []; first [apply preserves_pure | apply preserves_raise].
Qed.

Section invariants.
Variables (g : gset string) (amici : @Amici V Traj RData Problem Model Solver).
Variables (w0 : @World V Problem Model Solver) (_fd _file : nat).

Lemma temp_open_log e w : temp_open w0 _fd _file w → temp_open w0 _fd _file (log e w).
Proof. done. Qed.

Lemma temp_open_write content w :
  temp_open w0 _fd _file w → temp_open w0 _fd _file (set_files (insert _file content) w).
Proof.
  intros [Hfds [c Hfiles]]. split; [done|]. exists content. simpl.
  by rewrite Hfiles, insert_insert_eq.
Qed.

Lemma preserves_write_settings self :
  preserves (temp_open w0 _fd _file) (write_settings g amici self _file).
Proof.
  apply preserves_bind; [apply preserves_name|]. intros _.
  destruct (hdf5_support amici); [|apply preserves_raise].
  apply preserves_bind; [apply preserves_get_solver|]. intros s.
  apply preserves_bind; [apply preserves_modify, temp_open_log|]. intros _.
  apply preserves_bind; [apply preserves_lift|]. intros content.
  apply preserves_modify, temp_open_write.
Qed.

Lemma preserves_read_settings solver :
  preserves (temp_open w0 _fd _file) (read_settings g amici _file solver).
Proof.
  apply preserves_bind; [apply preserves_name|]. intros _.
  destruct (hdf5_support amici); [|apply preserves_raise].
  apply preserves_bind; [apply preserves_modify, temp_open_log|]. intros _.
  intros w r w' Hrun HP. cbv beta in Hrun.
  destruct (files w !! _file); unfold lift, os_error, raise in Hrun; by simplify_eq.
Qed.

Lemma preserves_read_fd : preserves (temp_open w0 _fd _file) (read_fd amici _fd).
Proof.
  intros w r w' Hrun HP. unfold read_fd, os_error, raise in Hrun.
  destruct (read_fault amici); [by simplify_eq|].
  destruct (fds w !! _fd ≫= _); by simplify_eq.
Qed.

Lemma preserves_write_fd content :
  preserves (temp_open w0 _fd _file) (write_fd amici _fd content).
Proof.
  intros w r w' Hrun HP. unfold write_fd, os_error, raise in Hrun.
  destruct (write_fault amici); [by simplify_eq|].
  pose proof HP as [Hfds _]. rewrite Hfds, lookup_insert_eq in Hrun.
  injection Hrun as <- <-. by apply temp_open_write.
Qed.

(** With [os] bound, the [finally] block closes the descriptor and
    removes the file, and the files and descriptors are those from before
    [mkstemp]. *)
Lemma cleanup_restores w :
  bool_decide ("os" ∈ g ∪ builtins) = true →
  fds w0 !! _fd = None → files w0 !! _file = None →
  temp_open w0 _fd _file w →
  cleanup g _fd _file w = (Ok tt, mkWorld (heap w) (files w0) (fds w0) (trace w)).
Proof.
  intros Hos Hfd Hfile [Hfds [content Hfiles]].
  unfold cleanup.
  erewrite bind_ok by (by apply name_bound).
  erewrite bind_ok; last first.
  { unfold os_close. rewrite Hfds, lookup_insert_eq. reflexivity. }
  erewrite bind_ok by (by apply name_bound).
  unfold os_remove. cbn [files set_fds]. rewrite Hfiles, lookup_insert_eq.
  unfold set_files, set_fds; simpl. rewrite Hfiles, Hfds.
  by rewrite !delete_insert_eq, !delete_id.
Qed.
End invariants.


Lemma same_files_trans w1 w2 w3 : same_files w1 w2 → same_files w2 w3 → same_files w1 w3.
Proof. intros [??] [??]. split; congruence. Qed.

Lemma same_files_log e w : same_files w (log e w).
Proof. done. Qed.

(** The scope of the temporary file, as both hooks write it: [mkstemp],
    then a body under [try]/[finally] with [cleanup]. With [tempfile] and
    [os] bound, the outcome is that of the body, and the world is the one
    the body leaves with the files and descriptors from before the
    scope. *)
Lemma temp_scope_run {A B} g
    (body : nat → nat → M (@World V Problem Model Solver) A) (f : A → B) w r w1 :
  bool_decide ("tempfile" ∈ g ∪ builtins) = true →
  bool_decide ("os" ∈ g ∪ builtins) = true →
  body (fresh (dom (fds w))) (fresh (dom (files w))) (mkstemp w).2 = (r, w1) →
  temp_open w (fresh (dom (fds w))) (fresh (dom (files w))) w1 →
  (let! _ := name g "tempfile" in
   let! ff := mkstemp in
   let '(_fd, _file) := ff in
   let! a := try_finally (body _fd _file) (cleanup g _fd _file) in
   pure (f a)) w
  = (match r with Ok a => Ok (f a) | Raise e => Raise e end,
     mkWorld (heap w1) (files w) (fds w) (trace w1)).
Proof.
  intros Ht Hos Hrun Hopen.
  erewrite bind_ok by (by apply name_bound).
  erewrite bind_ok by apply mkstemp_run.
  pose proof (cleanup_restores g w _ _ w1 Hos (fresh_fd w) (fresh_file w) Hopen) as Hclean.
  unfold bind. cbv beta iota. rewrite (try_finally_ok _ _ _ _ _ _ Hrun Hclean).
  by destruct r.
Qed.

(** If the body keeps the temporary file open and [os] is bound whenever
    [tempfile] is, the scope leaves the files and descriptors as it found
    them, on every outcome. *)
Lemma temp_scope_same_files {A B} g
    (body : nat → nat → M (@World V Problem Model Solver) A) (f : A → B) w :
  ("tempfile" ∈ g → "os" ∈ g) →
  (∀ _fd _file, preserves (temp_open w _fd _file) (body _fd _file)) →
  same_files w
    ((let! _ := name g "tempfile" in
      let! ff := mkstemp in
      let '(_fd, _file) := ff in
      let! a := try_finally (body _fd _file) (cleanup g _fd _file) in
      pure (f a)) w).2.
Proof.
  intros Hg Hbody. destruct (bool_decide ("tempfile" ∈ g ∪ builtins)) eqn:Ht.
  - assert (bool_decide ("os" ∈ g ∪ builtins) = true) as Hos.
    { apply bool_decide_eq_true_2, elem_of_union_l, Hg.
      apply bool_decide_eq_true_1, elem_of_union in Ht as [?|Hb]; [done|].
      by apply (bool_decide_pack _) in Hb. }
    destruct (body (fresh (dom (fds w))) (fresh (dom (files w))) (mkstemp w).2)
      as [r w1] eqn:Hrun.
    assert (temp_open w (fresh (dom (fds w))) (fresh (dom (files w))) w1) as Hopen.
    { eapply Hbody; [done|]. apply mkstemp_temp_open. }
    by rewrite (temp_scope_run g body f w r w1 Ht Hos Hrun Hopen).
  - erewrite bind_raise by (by apply name_unbound). done.
Qed.
End tempfile_lemmas.

(** ** The pickling hooks keep the file system *)

Section hooks_keep_files.
Context {V Traj RData Problem Model Solver : Type}.
Implicit Types (w : @World V Problem Model Solver).
Implicit Types (amici : @Amici V Traj RData Problem Model Solver).
Implicit Types (self state : gmap string (@PyVal V Problem Model Solver)).

Lemma keeps_files_of_preserves {A} (c : M (@World V Problem Model Solver) A) :
  (∀ w0, preserves (same_files w0) c) → keeps_files c.
Proof.
  intros Hc w. destruct (c w) as [r w'] eqn:Hrun.
  eapply Hc; [done|apply same_files_refl].
Qed.

Lemma keeps_files_bind {A B} (c : M (@World V Problem Model Solver) A) (k : A → M _ B) :
  keeps_files c → (∀ a, keeps_files (k a)) → keeps_files (bind c k).
Proof.
  intros Hc Hk w. unfold bind. specialize (Hc w).
  destruct (c w) as [[a|e] w1]; [|done].
  eapply same_files_trans; [apply Hc|apply Hk].
Qed.

Lemma keeps_files_log (e : @Event V Problem Model Solver) : keeps_files (modify (log e)).
Proof. intros w. apply same_files_log. Qed.

Lemma getstate_keeps_files g amici self :
  ("tempfile" ∈ g → "os" ∈ g) → keeps_files (__getstate__ g amici self).
Proof.
  intros Hg w. unfold __getstate__.
  apply (temp_scope_same_files g _ (λ state, state) w Hg).
  intros _fd _file.
  apply preserves_bind.
  - apply preserves_try_except; [apply preserves_write_settings|].
    intros e. apply preserves_raise.
  - intros _. apply preserves_bind; [apply preserves_read_fd|].
    intros settings. apply preserves_pure.
Qed.

Lemma setstate_keeps_files g amici self state :
  ("tempfile" ∈ g → "os" ∈ g) → keeps_files (__setstate__ g amici self state).
Proof.
  intros Hg. unfold __setstate__.
  apply keeps_files_bind.
  { apply keeps_files_of_preserves. intros. apply preserves_name. }
  intros _. apply keeps_files_bind.
  { apply keeps_files_of_preserves. intros. apply preserves_get_problem. }
  intros petab_problem. apply keeps_files_bind; [apply keeps_files_log|].
  intros _. apply keeps_files_bind.
  { apply keeps_files_of_preserves. intros. apply preserves_lift. }
  intros model. apply keeps_files_bind; [apply keeps_files_log|].
  intros _. apply keeps_files_bind.
  { apply keeps_files_of_preserves. intros. apply preserves_lift. }
  intros solver w.
  apply (temp_scope_same_files g _ _ w Hg).
  intros _fd _file.
  apply preserves_bind.
  - destruct (state !! "amici_solver_settings") as [[]|];
      first [apply preserves_pure | apply preserves_raise].
  - intros settings. apply preserves_bind; [apply preserves_write_fd|].
    intros _. apply preserves_try_except; [apply preserves_read_settings|].
    intros err. apply preserves_raise.
Qed.

(** In the module as written no temporary file is created at all. *)
Corollary module_hooks_keep_files amici self state :
  keeps_files (__getstate__ module_globals amici self)
  ∧ keeps_files (__setstate__ module_globals amici self state).
Proof.
  assert ("tempfile" ∈ module_globals → "os" ∈ module_globals) as Hg.
  { intros Ht. by apply (bool_decide_pack _) in Ht. }
  split; [by apply getstate_keeps_files | by apply setstate_keeps_files].
Qed.

End hooks_keep_files.

(** ** The pickling hooks in the module's namespace *)

Section hooks_unbound.
Context {V Traj RData Problem Model Solver : Type}.
Implicit Types (w : @World V Problem Model Solver).
Implicit Types (amici : @Amici V Traj RData Problem Model Solver).
Implicit Types (self state : gmap string (@PyVal V Problem Model Solver)).

(** [tempfile] is not a global of the module, nor a builtin: line 190
    raises before [mkstemp] is called. *)
Lemma getstate_name_error amici self w :
  __getstate__ module_globals amici self w = (Raise (name_error "tempfile"), w).
Proof. unfold __getstate__. by erewrite bind_raise by unbound. Qed.

(** [__setstate__] rebuilds the model and the solver (lines 213-214) and
    then stops at line 216 for the same reason, unless one of the two
    steps before has failed. *)
Lemma setstate_name_error amici self state w :
  __setstate__ module_globals amici self state w =
    match (state ∪ self) !! "petab_problem" with
    | Some (VProblem petab_problem) =>
        let w1 := log (EImportProblem petab_problem) w in
        match import_petab_problem amici petab_problem with
        | Ok model =>
            let w2 := log (EGetSolver model) w1 in
            match getSolver amici model with
            | Ok _ => (Raise (name_error "tempfile"), w2)
            | Raise e => (Raise e, w2)
            end
        | Raise e => (Raise e, w1)
        end
    | Some _ => type_error "petab_problem" w
    | None => (Raise (attribute_error "petab_problem"), w)
    end.
Proof.
  unfold __setstate__.
  erewrite bind_ok by bound.
  unfold get_problem, getattr at 1.
  destruct ((state ∪ self) !! "petab_problem") as [[pb| | | | | |]|] eqn:Hp;
    rewrite ?Hp; try reflexivity.
Qed.
End hooks_unbound.

(** ** The bodies of the pickling hooks

    What the code after lines 190 and 216 does in a namespace [g] that
    binds [tempfile] and [os] besides the module's own names. The module's
    namespace is not such a [g]. *)

Section hooks_bound.
Context {V Traj RData Problem Model Solver : Type}.
Implicit Types (w : @World V Problem Model Solver).
Implicit Types (amici : @Amici V Traj RData Problem Model Solver).
Implicit Types (self state : gmap string (@PyVal V Problem Model Solver)).

(** Lines 186-188 copy every attribute except the two live handles. *)
Lemma collect_state_lookup self k :
  collect_state self !! k =
    if decide (k = "amici_model" ∨ k = "amici_solver") then None else self !! k.
Proof.
  unfold collect_state.
  set (f := λ key (st : gmap string PyVal),
              match self !! key with Some v => <[key:=v]> st | None => st end).
  assert (∀ X : gset string,
            ∀ k, set_fold f ∅ X !! k = if decide (k ∈ X) then self !! k else None)
    as Hfold.
  { intros X.
    refine (set_fold_ind_L
              (λ st (Y : gset string),
                 ∀ k, st !! k = if decide (k ∈ Y) then self !! k else None)
              f ∅ _ _ X).
    - intros k'. by rewrite lookup_empty, decide_False by set_solver.
    - intros x Y st Hx IH k'. unfold f.
      destruct (decide (k' = x)) as [->|Hne].
      + rewrite decide_True by set_solver.
        destruct (self !! x) eqn:Hsx; [by rewrite lookup_insert_eq|].
        by rewrite IH, decide_False.
      + assert (st !! k' = if decide (k' ∈ {[x]} ∪ Y) then self !! k' else None) as <-.
        { rewrite IH. destruct (decide (k' ∈ Y)) as [Hin|Hnin].
          - rewrite decide_True; [done|]. apply elem_of_union. by right.
          - rewrite decide_False; [done|]. intros [Hx'|?]%elem_of_union; [|done].
            by apply elem_of_singleton in Hx'. }
        destruct (self !! x); [by rewrite lookup_insert_ne|done]. }
  rewrite Hfold. destruct (decide (k = "amici_model" ∨ k = "amici_solver")) as [Hk|Hk].
  - rewrite decide_False; [done|].
    intros [_ Hnot]%elem_of_difference. apply Hnot.
    destruct Hk as [-> | ->]; apply elem_of_union; [left|right]; by apply elem_of_singleton.
  - destruct (self !! k) as [v|] eqn:Hv; [|by case_decide].
    rewrite decide_True; [done|]. apply elem_of_difference. split.
    + by apply elem_of_dom_2 in Hv.
    + intros [Hm|Hs]%elem_of_union; apply elem_of_singleton in Hm || apply elem_of_singleton in Hs;
        apply Hk; auto.
Qed.

(** No handle is left in the collected state of an instance that holds
    its handles under [amici_model] and [amici_solver] only. *)
Lemma collect_state_no_handle self k v :
  (∀ k' v', self !! k' = Some v' → is_handle v' = true →
            k' = "amici_model" ∨ k' = "amici_solver") →
  collect_state self !! k = Some v → is_handle v = false.
Proof.
  intros Hself. rewrite collect_state_lookup. case_decide as Hk; [done|].
  intros Hv. destruct (is_handle v) eqn:Hh; [|done].
  destruct Hk. by eapply Hself.
Qed.

Section bound.
Variables (g : gset string) (amici : @Amici V Traj RData Problem Model Solver).
Hypothesis Hg : module_globals ⊆ g.
Hypothesis Htempfile : "tempfile" ∈ g.
Hypothesis Hos : "os" ∈ g.

Local Ltac bound_g :=
  apply (name_extends module_globals); [apply Hg | vm_compute; reflexivity].

Lemma tempfile_bound : bool_decide ("tempfile" ∈ g ∪ builtins) = true.
Proof using Htempfile. apply bool_decide_eq_true_2, elem_of_union_l, Htempfile. Qed.

Lemma os_bound : bool_decide ("os" ∈ g ∪ builtins) = true.
Proof using Hos. apply bool_decide_eq_true_2, elem_of_union_l, Hos. Qed.

(** Capture on a build without HDF5 support: the [AttributeError] of
    line 194 comes back with the hint appended to its [args]. *)
Lemma getstate_no_hdf5 self w :
  hdf5_support amici = false →
  __getstate__ g amici self w =
    (Raise (mkExc AttributeError
              ["module 'amici' has no attribute 'writeSolverSettingsToHDF5'";
               pickling_hint]), w).
Proof using Hg Htempfile Hos.
  intros Hh. unfold __getstate__.
  erewrite (temp_scope_run g _ (λ st, st) w _ (mkstemp w).2 tempfile_bound os_bound);
    [| |apply mkstemp_temp_open].
  2: { erewrite bind_raise; [done|].
       erewrite try_except_caught; cycle 1.
       { unfold write_settings. erewrite bind_ok by bound_g. by rewrite Hh. }
       { done. }
       done. }
  by destruct w.
Qed.

(** Capture when the export itself raises an [AttributeError]. *)
Lemma getstate_export_attribute_error self w s e :
  hdf5_support amici = true →
  self !! "amici_solver" = Some (VSolver s) →
  writeSolverSettingsToHDF5 amici s = Raise e →
  exc_class e = AttributeError →
  __getstate__ g amici self w =
    (Raise (mkExc AttributeError (exc_args e ++ [pickling_hint])),
     log (EWriteSettings s (fresh (dom (files w)))) w).
Proof using Hg Htempfile Hos.
  intros Hh Hs Hw He. unfold __getstate__.
  erewrite (temp_scope_run g _ (λ st, st) w _
              (log (EWriteSettings s (fresh (dom (files w)))) (mkstemp w).2)
              tempfile_bound os_bound);
    [| |apply temp_open_log, mkstemp_temp_open].
  2: { erewrite bind_raise; [done|].
       erewrite try_except_caught; cycle 1.
       { unfold write_settings. erewrite bind_ok by bound_g. rewrite Hh.
         erewrite bind_ok by (by apply get_solver_ok).
         erewrite bind_ok by reflexivity.
         by erewrite bind_raise by (unfold lift; by rewrite Hw). }
       { done. }
       by rewrite He. }
  by destruct w.
Qed.

(** Capture when export and read succeed: the snapshot is the collected
    attributes and the exported bytes, and the world is as before but for
    the recorded call. *)
Lemma getstate_run self w s content :
  hdf5_support amici = true →
  read_fault amici = None →
  self !! "amici_solver" = Some (VSolver s) →
  writeSolverSettingsToHDF5 amici s = Ok content →
  __getstate__ g amici self w =
    (Ok (<["amici_solver_settings" := VBytes content]> (collect_state self)),
     log (EWriteSettings s (fresh (dom (files w)))) w).
Proof using Hg Htempfile Hos.
  intros Hh Hr Hs Hw. unfold __getstate__.
  erewrite (temp_scope_run g _ (λ st, st) w _
              (set_files (insert (fresh (dom (files w))) content)
                 (log (EWriteSettings s (fresh (dom (files w)))) (mkstemp w).2))
              tempfile_bound os_bound);
    [| |apply temp_open_write, temp_open_log, mkstemp_temp_open].
  2: { erewrite bind_ok; last first.
       { apply try_except_ok.
         unfold write_settings. erewrite bind_ok by bound_g. rewrite Hh.
         erewrite bind_ok by (by apply get_solver_ok).
         erewrite bind_ok by reflexivity.
         erewrite bind_ok by (unfold lift; by rewrite Hw).
         reflexivity. }
       erewrite bind_ok; [reflexivity|].
       unfold read_fd. rewrite Hr. cbn [fds files set_files log mkstemp snd set_fds].
       rewrite lookup_insert_eq. cbn. by rewrite lookup_insert_eq. }
  by destruct w.
Qed.

(** Restore when every step succeeds. *)
Lemma setstate_run self state w p m s0 s content :
  hdf5_support amici = true →
  write_fault amici = None →
  (state ∪ self) !! "petab_problem" = Some (VProblem p) →
  state !! "amici_solver_settings" = Some (VBytes content) →
  import_petab_problem amici p = Ok m →
  getSolver amici m = Ok s0 →
  readSolverSettingsFromHDF5 amici content s0 = Ok s →
  ∃ w', __setstate__ g amici self state w =
          (Ok (<["amici_solver" := VSolver s]>
                 (<["amici_model" := VModel m]> (state ∪ self))), w')
        ∧ heap w' = heap w ∧ same_files w w'
        ∧ ∃ _file, trace w' = EReadSettings _file s0 :: EGetSolver m
                               :: EImportProblem p :: trace w.
Proof using Hg Htempfile Hos.
  intros Hh Hwf Hp Hst Himp Hsol Hread. eexists. split.
  - unfold __setstate__.
    erewrite bind_ok by bound_g.
    erewrite bind_ok by (by apply get_problem_ok).
    erewrite bind_ok by reflexivity.
    erewrite bind_ok by (unfold lift; by rewrite Himp).
    erewrite bind_ok by reflexivity.
    erewrite bind_ok by (unfold lift; by rewrite Hsol).
    set (w1 := log (EGetSolver m) (log (EImportProblem p) w)).
    erewrite (temp_scope_run g _ _ w1 (Ok s)
              (log (EReadSettings (fresh (dom (files w1))) s0)
                 (set_files (insert (fresh (dom (files w1))) content) (mkstemp w1).2))
              tempfile_bound os_bound).
    + reflexivity.
    + rewrite Hst. erewrite bind_ok by reflexivity.
      erewrite bind_ok; last first.
      { unfold write_fd. rewrite Hwf. cbn [fds mkstemp snd set_fds].
        rewrite lookup_insert_eq. reflexivity. }
      apply try_except_ok. unfold read_settings.
      erewrite bind_ok by bound_g. rewrite Hh.
      erewrite bind_ok by reflexivity. cbn [files log modify snd set_files].
      rewrite lookup_insert_eq. unfold lift. by rewrite Hread.
    + apply temp_open_log, temp_open_write, mkstemp_temp_open.
  - split_and!; [done|done|]. eexists. reflexivity.
Qed.

(** Restore on a build without HDF5 support: the [AttributeError] of
    line 223 comes back with the hint appended to its [args]. *)
Lemma setstate_no_hdf5 self state w p m s0 content :
  hdf5_support amici = false →
  write_fault amici = None →
  (state ∪ self) !! "petab_problem" = Some (VProblem p) →
  state !! "amici_solver_settings" = Some (VBytes content) →
  import_petab_problem amici p = Ok m →
  getSolver amici m = Ok s0 →
  (__setstate__ g amici self state w).1 =
    Raise (mkExc AttributeError
             ["module 'amici' has no attribute 'readSolverSettingsFromHDF5'";
              unpickling_hint]).
Proof using Hg Htempfile Hos.
  intros Hh Hwf Hp Hst Himp Hsol.
  unfold __setstate__.
  erewrite bind_ok by bound_g.
  erewrite bind_ok by (by apply get_problem_ok).
  erewrite bind_ok by reflexivity.
  erewrite bind_ok by (unfold lift; by rewrite Himp).
  erewrite bind_ok by reflexivity.
  erewrite bind_ok by (unfold lift; by rewrite Hsol).
  set (w1 := log (EGetSolver m) (log (EImportProblem p) w)).
  erewrite (temp_scope_run g _ _ w1 (Raise _)
            (set_files (insert (fresh (dom (files w1))) content) (mkstemp w1).2)
            tempfile_bound os_bound).
  - reflexivity.
  - rewrite Hst. erewrite bind_ok by reflexivity.
    erewrite bind_ok; last first.
    { unfold write_fd. rewrite Hwf. cbn [fds mkstemp snd set_fds].
      rewrite lookup_insert_eq. reflexivity. }
    erewrite try_except_caught; cycle 1.
    { unfold read_settings. erewrite bind_ok by bound_g. by rewrite Hh. }
    { done. }
    reflexivity.
  - apply temp_open_write, mkstemp_temp_open.
Qed.
End bound.
End hooks_bound.

(** ** Capture and restore *)

Section pickle_claims.
Context {V Traj RData Problem Model Solver : Type}.
Implicit Types (w : @World V Problem Model Solver).
Implicit Types (amici : @Amici V Traj RData Problem Model Solver).
Implicit Types (self state : gmap string (@PyVal V Problem Model Solver)).
Implicit Types (p : Problem) (m : Model) (s : Solver).
Implicit Types (x_ids x_fixed_ids : list string) (x_fixed_vals : list V).

(** The snapshot of an instance built by [__init__], restored into an
    empty [__dict__], has the attributes of the instance with the rebuilt
    model and solver. *)
Lemma restored_has_attrs p m s x_ids x_fixed_ids x_fixed_vals rs rr content m' s' :
  let self := __init__ p m s x_ids x_fixed_ids x_fixed_vals rs rr in
  let state := <["amici_solver_settings" := VBytes content]> (collect_state self) in
  has_attrs (<["amici_solver" := VSolver s']> (<["amici_model" := VModel m']> (state ∪ ∅)))
    p m' s' x_ids x_fixed_ids x_fixed_vals rs rr.
Proof.
  intros self state. rewrite (right_id_L ∅ (∪)). unfold state.
  split.
  all: try (rewrite lookup_insert_eq; done).
  all: try (rewrite lookup_insert_ne by done; rewrite lookup_insert_eq; done).
  all: rewrite !lookup_insert_ne by done.
  all: rewrite collect_state_lookup, decide_False by (by intros [|]); done.
Qed.

(** With [tempfile] and [os] bound and an export that succeeds, the
    snapshot of an instance built by [__init__] holds the exported bytes
    under [amici_solver_settings], every attribute but [amici_model] and
    [amici_solver] under its name, and no live handle. *)
Lemma snapshot_with_imports g amici p m s x_ids x_fixed_ids x_fixed_vals rs rr content w :
  module_globals ⊆ g → "tempfile" ∈ g → "os" ∈ g →
  hdf5_support amici = true → read_fault amici = None →
  writeSolverSettingsToHDF5 amici s = Ok content →
  let self := __init__ p m s x_ids x_fixed_ids x_fixed_vals rs rr in
  ∃ snapshot,
    (__getstate__ g amici self w).1 = Ok snapshot
    ∧ snapshot !! "amici_solver_settings" = Some (VBytes content)
    ∧ snapshot !! "amici_model" = None
    ∧ snapshot !! "amici_solver" = None
    ∧ (∀ k, k ≠ "amici_model" → k ≠ "amici_solver" → k ≠ "amici_solver_settings" →
            snapshot !! k = self !! k)
    ∧ (∀ k v, snapshot !! k = Some v → is_handle v = false).
Proof.
  intros Hg Ht Hos Hh Hrf Hexp self. eexists.
  rewrite (getstate_run g amici Hg Ht Hos self w s content) by done.
  split_and!; [done|apply lookup_insert_eq|..].
  - rewrite lookup_insert_ne by done. rewrite collect_state_lookup.
    by rewrite decide_True by auto.
  - rewrite lookup_insert_ne by done. rewrite collect_state_lookup.
    by rewrite decide_True by auto.
  - intros k Hm Hs Hk. rewrite lookup_insert_ne by done.
    rewrite collect_state_lookup. by rewrite decide_False by (by intros [|]).
  - intros k v. destruct (decide (k = "amici_solver_settings")) as [->|Hk].
    + rewrite lookup_insert_eq. by intros [= <-].
    + rewrite lookup_insert_ne by done. apply collect_state_no_handle.
      intros k' v' Hk' Hh'. unfold self, __init__ in Hk'.
      repeat (rewrite lookup_insert in Hk'; case_decide; simplify_eq; auto).
Qed.

(** With [tempfile] and [os] bound, an HDF5-capable library, and a
    rebuilt model and solver that simulate as the originals do, the
    restored copy evaluates as the instance itself. *)
Lemma roundtrip_with_imports g amici p m s x_ids x_fixed_ids x_fixed_vals rs rr
    content m' s0 s' w l :
  module_globals ⊆ g → "tempfile" ∈ g → "os" ∈ g →
  hdf5_support amici = true → read_fault amici = None → write_fault amici = None →
  writeSolverSettingsToHDF5 amici s = Ok content →
  import_petab_problem amici p = Ok m' →
  getSolver amici m' = Ok s0 →
  readSolverSettingsFromHDF5 amici content s0 = Ok s' →
  (∀ d, simulate_petab amici p m' s' d = simulate_petab amici p m s d) →
  let self := __init__ p m s x_ids x_fixed_ids x_fixed_vals rs rr in
  (evaluate_restored g amici self l w).1 = (__call__ g amici self l w).1.
Proof.
  intros Hg Ht Hos Hh Hrf Hwf Hexp Himp Hsol Hread Hsim self.
  pose proof Hg as Hg'.
  unfold evaluate_restored.
  erewrite bind_ok by (by eapply (getstate_run g amici Hg Ht Hos self)).
  set (state := <["amici_solver_settings" := VBytes content]> (collect_state self)).
  set (w1 := log _ w).
  destruct (setstate_run g amici Hg Ht Hos ∅ state w1 p m' s0 s' content)
    as (w2 & Hrun & Hheap & _);
    [done..|].
  unfold restore. erewrite bind_ok by exact Hrun.
  pose proof (restored_has_attrs p m s x_ids x_fixed_ids x_fixed_vals rs rr content m' s')
    as Hattrs. cbv zeta in Hattrs. fold self in Hattrs. fold state in Hattrs.
  pose proof (init_has_attrs p m s x_ids x_fixed_ids x_fixed_vals rs rr) as Hinit.
  fold self in Hinit.
  destruct (heap w !! l) as [[xs|d]|] eqn:Hl.
  - erewrite (call_sequence g _ _ _ _ _ _ _ _ _ Hg' Hattrs amici w2) by (by rewrite Hheap).
    erewrite (call_sequence g _ _ _ _ _ _ _ _ _ Hg' Hinit amici w) by done.
    cbv zeta. cbn [fst]. by rewrite Hsim.
  - erewrite (call_mapping g _ _ _ _ _ _ _ _ _ Hg' Hattrs amici w2) by (by rewrite Hheap).
    erewrite (call_mapping g _ _ _ _ _ _ _ _ _ Hg' Hinit amici w) by done.
    cbn [fst]. by rewrite Hsim.
  - rewrite (call_dangling g _ Hg' amici w2 l) by (by rewrite Hheap).
    by rewrite (call_dangling g _ Hg' amici w l) by done.
Qed.

(** C1. The round trip is never completed. In the module's namespace
    [restore(capture(M)).evaluate(P)] stops in [capture], at the reference
    to [tempfile] on line 190, for every instance and every parameter
    set: there is no restored copy to compare with [M.evaluate(P)]. *)
Theorem roundtrip_stops_in_capture amici self par w :
  evaluate_restored module_globals amici self par w
    = (Raise (name_error "tempfile"), w).
Proof.
  unfold evaluate_restored. by erewrite bind_raise by apply getstate_name_error.
Qed.

(** C7. The hint is never appended. In the module's namespace capture
    raises the [NameError] of line 190, which is not an [AttributeError]
    and does not carry the pickling hint, whether or not the library has
    HDF5 support; restore, once the model and the solver are rebuilt,
    raises the [NameError] of line 216 in the same way. The handlers of
    lines 196-199 and 224-229 are not reached. *)
Theorem hint_never_appended amici self state w :
  (∃ e, (__getstate__ module_globals amici self w).1 = Raise e
        ∧ exc_class e = NameError ∧ pickling_hint ∉ exc_args e)
  ∧ (∀ petab_problem model solver,
       (state ∪ self) !! "petab_problem" = Some (VProblem petab_problem) →
       import_petab_problem amici petab_problem = Ok model →
       getSolver amici model = Ok solver →
       ∃ e, (__setstate__ module_globals amici self state w).1 = Raise e
            ∧ exc_class e = NameError ∧ unpickling_hint ∉ exc_args e).
Proof.
  split.
  - exists (name_error "tempfile"). rewrite getstate_name_error.
    split_and!; [done..|]. by intros [=]%list_elem_of_singleton.
  - intros pb model solver Hp Himp Hsol. exists (name_error "tempfile").
    rewrite setstate_name_error, Hp. cbv zeta. rewrite Himp, Hsol.
    split_and!; [done..|]. by intros [=]%list_elem_of_singleton.
Qed.

(** C9. Capture produces no snapshot. In the module's namespace
    [__getstate__] of an instance built by [__init__] never returns a
    state mapping: it raises at line 190, after the attributes have been
    collected and before the solver settings are exported. *)
Theorem capture_returns_no_snapshot
    amici p m s x_ids x_fixed_ids x_fixed_vals rs rr w :
  let self := __init__ p m s x_ids x_fixed_ids x_fixed_vals rs rr in
  ¬ (∃ snapshot w', __getstate__ module_globals amici self w = (Ok snapshot, w'))
  ∧ trace (__getstate__ module_globals amici self w).2 = trace w.
Proof.
  intros self. rewrite getstate_name_error. split; [|done].
  by intros (snapshot & w' & [=]).
Qed.


End pickle_claims.

(** * The worked instance, evaluated *)

Example call_merges_fixed :
  (__call__ module_globals (stub_amici true) (stub_model false false) 0 stub_world).2.(trace)
  = [ESimulate "problem" "model of problem" 3 {[ "a" := 1%Z; "b" := 2%Z ]}].
Proof. vm_compute. reflexivity. Qed.

Example call_returns_llh :
  (__call__ module_globals (stub_amici true) (stub_model false false) 0 stub_world).1
  = Ok {[ "llh" := RLlh 3%Z ]}.
Proof. vm_compute. reflexivity. Qed.

Example capture_stops_at_tempfile :
  __getstate__ module_globals (stub_amici true) (stub_model false false) stub_world
  = (Raise (name_error "tempfile"), stub_world).
Proof. vm_compute. reflexivity. Qed.

Example restore_stops_at_tempfile :
  (restore module_globals (stub_amici true) stub_state stub_world).1
  = Raise (name_error "tempfile").
Proof. vm_compute. reflexivity. Qed.

(** ** The claims at the worked instance *)

Lemma fixed_values_override_witness :
  heap stub_world !! 0 = Some (DictObj {[ "a" := 1%Z; "b" := 5%Z ]})
  ∧ ∃ forwarded,
      trace (__call__ module_globals (stub_amici true) (stub_model false false) 0
               stub_world).2
        = ESimulate "problem" "model of problem" 3 forwarded :: trace stub_world
      ∧ forwarded !! "b" = Some 2%Z
      ∧ (∀ k', k' ∉ ["b"] → forwarded !! k' = ({[ "a" := 1%Z; "b" := 5%Z ]} : gmap string Z) !! k')
      ∧ (__call__ module_globals (stub_amici true) (stub_model false false) 0
           stub_world).1
        = match simulate_petab (stub_amici true) "problem" "model of problem" 3 forwarded with
          | Ok sim => Ok (result_mapping (stub_amici true) false false sim)
          | Raise e => Raise e
          end.
Proof.
  split; [reflexivity|].
  apply (fixed_values_override (stub_amici true) "problem" "model of problem" 3
           ["a"] ["b"] [2%Z] false false stub_world 0
           {[ "a" := 1%Z; "b" := 5%Z ]} 0 "b" 2%Z).
  - reflexivity.
  - apply NoDup_singleton.
  - reflexivity.
  - reflexivity.
Defined.

Lemma sequence_matches_zipped_mapping_witness :
  (__call__ module_globals (stub_amici true) (stub_model true true) 1 stub_world).1
    = (__call__ module_globals (stub_amici true) (stub_model true true) 2 stub_world).1
  ∧ head (trace (__call__ module_globals (stub_amici true) (stub_model true true) 1
                   stub_world).2)
    = head (trace (__call__ module_globals (stub_amici true) (stub_model true true) 2
                     stub_world).2).
Proof.
  apply (sequence_matches_zipped_mapping (stub_amici true) "problem" "model of problem" 3
           ["a"] ["b"] [2%Z] true true stub_world stub_world 1 2 [4%Z]).
  - reflexivity.
  - reflexivity.
  - vm_compute. reflexivity.
Defined.

Lemma caller_argument_unchanged_witness :
  let w' := (__call__ module_globals (stub_amici true) (stub_model false false) 0
               stub_world).2 in
  heap w' !! 0 = Some (DictObj {[ "a" := 1%Z; "b" := 5%Z ]})
  ∧ ∀ l0 o0, heap stub_world !! l0 = Some o0 → heap w' !! l0 = Some o0.
Proof.
  apply (caller_argument_unchanged (stub_amici true) "problem" "model of problem" 3
           ["a"] ["b"] [2%Z] false false stub_world 0).
  reflexivity.
Defined.

Lemma only_llh_key_witness :
  ∃ ret,
    (__call__ module_globals (stub_amici true) (stub_model false false) 1 stub_world).1
      = Ok ret
    ∧ dom ret = {["llh"]}.
Proof.
  exists {[ "llh" := RLlh 6%Z ]}. split; [vm_compute; reflexivity|].
  apply (only_llh_key (stub_amici true) "problem" "model of problem" 3
           ["a"] ["b"] [2%Z] stub_world 1 {[ "llh" := RLlh 6%Z ]}
           (__call__ module_globals (stub_amici true) (stub_model false false) 1
              stub_world).2).
  vm_compute. reflexivity.
Defined.

Lemma simulation_keys_witness :
  ∃ ret,
    (__call__ module_globals (stub_amici true) (stub_model true true) 1 stub_world).1
      = Ok ret
    ∧ ret !! "llh" = Some (RLlh 6%Z)
    ∧ ret !! "y_0" = Some (RY [4%Z])
    ∧ ret !! "y_1" = Some (RY [4%Z; 2%Z])
    ∧ ∃ forwarded sim,
        simulate_petab (stub_amici true) "problem" "model of problem" 3 forwarded = Ok sim
        ∧ ∀ k, k ∈ dom ret ↔
               k = "llh"
               ∨ (∃ i, i < length (sim_rdatas sim) ∧ k = y_key i)
               ∨ (true = true ∧ k = "rdatas").
Proof.
  set (ret := result_mapping (stub_amici true) true true (mkSim 6%Z [[4%Z]; [4%Z; 2%Z]])).
  exists ret. split_and!; [vm_compute; reflexivity..|].
  destruct (simulation_keys (stub_amici true) "problem" "model of problem" 3
              ["a"] ["b"] [2%Z] true stub_world 1 ret
              (__call__ module_globals (stub_amici true) (stub_model true true) 1
                 stub_world).2)
    as (forwarded & sim & Hsim & _ & _ & _ & Hdom).
  - vm_compute. reflexivity.
  - intros _. split; [discriminate|]. intros i. unfold y_key. discriminate.
  - exists forwarded, sim. split; [exact Hsim | exact Hdom].
Defined.

